(** * Flask task manager: the handlers of [app.py] over a model of the
    [todo] table.

    The application is five Flask view functions over one SQLAlchemy
    model.  The views are embedded as computations in a small monad that
    carries the request context (form data, wall clock), the SQLAlchemy
    session (committed rows plus the unit of work not yet flushed) and the
    [abort(404)] raised by [get_or_404].  [serve] is the answer of a view;
    [full_dispatch_request] adds what Flask makes of an id that the database
    driver cannot bind. *)

From stdpp Require Import base numbers list strings sorting pretty.
From Stdlib Require Import Ascii.

Local Open Scope string_scope.
Local Open Scope list_scope.

(** ** The [Todo] model (app.py, lines 46-62) *)

(** One row of the [todo] table.  [created_at] is a [datetime]; it is only
    ever compared, so it is kept as a number of clock ticks. *)
Record Todo := mkTodo {
  id : Z;
  title : string;
  completed : bool;
  created_at : Z
}.

#[global] Instance Todo_eq_dec : EqDecision Todo.
Proof. solve_decision. Defined.

(** Attribute assignment on a loaded object. *)
Definition with_completed (b : bool) (t : Todo) : Todo :=
  {| id := id t; title := title t; completed := b; created_at := created_at t |}.

Definition with_title (s : string) (t : Todo) : Todo :=
  {| id := id t; title := s; completed := completed t; created_at := created_at t |}.

(** [Todo.__repr__] (app.py, lines 61-62): [f'<Todo {self.id}: {self.title}>'].
    [pretty] writes an integer as Python's [str] does: decimal digits, with a
    leading minus sign for a negative number. *)
Definition __repr__ (self : Todo) : string :=
  "<Todo " +:+ pretty (id self) +:+ ": " +:+ title self +:+ ">".

(** The table, in rowid order. *)
Abbreviation table := (list Todo).

(** [primary_key=True] on [id]: no two rows share an id. *)
Definition primary_key (db : table) : Prop := NoDup (id <$> db).

(** [db.String(200)]: the declared width of the [title] column. *)
Definition title_width : nat := 200.

(** ** The storage layer *)

(** The statements a flush emits for the objects of the unit of work. *)
Inductive change :=
| Insert (new_title : string)              (* session.add(Todo(title=...)) *)
| UpdateCompleted (pk : Z) (value : bool)  (* todo.completed = ...         *)
| UpdateTitle (pk : Z) (value : string)    (* todo.title = ...             *)
| DeleteRow (pk : Z).                      (* session.delete(todo)         *)

(** An [INTEGER PRIMARY KEY] column without AUTOINCREMENT is SQLite's rowid:
    a new row gets 1 in an empty table and one more than the largest rowid
    in use otherwise.  Rowids are kept unbounded here; running out of the
    64-bit rowid space is not modelled. *)
Definition next_rowid (db : table) : Z :=
  match db with
  | [] => 1
  | t :: db' => 1 + foldr (λ x m, Z.max (id x) m) (id t) db'
  end.

(** One statement against the table.  The column defaults are filled in by
    the INSERT: [completed] gets [False], [created_at] gets
    [datetime.utcnow()].  UPDATE and DELETE select by primary key.  The
    configured engine is SQLite, which does not enforce the declared width
    of a VARCHAR column, so the title is stored as given. *)
Definition apply_change (now : Z) (c : change) (db : table) : table :=
  match c with
  | Insert t =>
      db ++ [ {| id := next_rowid db; title := t;
                 completed := false; created_at := now |} ]
  | UpdateCompleted i b =>
      (λ x, if decide (id x = i) then with_completed b x else x) <$> db
  | UpdateTitle i s =>
      (λ x, if decide (id x = i) then with_title s x else x) <$> db
  | DeleteRow i => filter (λ x, id x ≠ i) db
  end.

Definition flush (now : Z) (cs : list change) (db : table) : table :=
  foldl (λ acc c, apply_change now c acc) db cs.

(** [order_by(Todo.created_at.desc())]: the later timestamp comes first. *)
Definition newest_first (a b : Todo) : Prop := (created_at b ≤ created_at a)%Z.

#[global] Instance newest_first_dec a b : Decision (newest_first a b).
Proof. unfold newest_first. apply _. Defined.

(** The rows put in that order.  SQL leaves the order of rows with equal
    timestamps open; SQLite returns them as it scans the table, in rowid
    order, and so does this sort: a row goes in front of the rows that are
    not newer than it. *)
Fixpoint insert_newest_first (x : Todo) (l : list Todo) : list Todo :=
  match l with
  | [] => [x]
  | y :: l' =>
      if decide (newest_first x y) then x :: y :: l'
      else y :: insert_newest_first x l'
  end.

Fixpoint order_by_created_at_desc (db : table) : list Todo :=
  match db with
  | [] => []
  | x :: db' => insert_newest_first x (order_by_created_at_desc db')
  end.

(** ** The handler monad *)

(** What a view function can see of the request, and the clock that
    [datetime.utcnow] reads while the request is served. *)
Record context := mkContext {
  form : list (string * string);
  utcnow : Z
}.

(** [db.session]: the committed rows and the changes not yet flushed. *)
Record session := mkSession {
  rows : table;
  pending : list change
}.

Inductive result (A : Type) :=
| Return (a : A)
| Abort (code : Z).
Arguments Return {A} a.
Arguments Abort {A} code.

Definition handler (A : Type) : Type := context → session → result A * session.

#[global] Instance handler_ret : MRet handler :=
  λ A a _ s, (Return a, s).

#[global] Instance handler_bind : MBind handler :=
  λ A B f m ctx s,
    match m ctx s with
    | (Return a, s') => f a ctx s'
    | (Abort code, s') => (Abort code, s')
    end.

(** [MultiDict.get(key)]: the first value of the field, [None] when the
    form has no such field. *)
Fixpoint multidict_get (key : string) (fields : list (string * string)) : option string :=
  match fields with
  | [] => None
  | (k, v) :: rest => if decide (k = key) then Some v else multidict_get key rest
  end.

(** [request.form.get(key)] *)
Definition request_form_get (key : string) : handler (option string) :=
  λ ctx s, (Return (multidict_get key (form ctx)), s).

(** [Todo.query.get_or_404(i)]: the row with primary key [i], or
    [abort(404)].  Every view queries before it changes anything, so the
    query reads the committed rows.  This is the query for an id the driver
    can bind as an SQLite INTEGER; what happens to any other id is in
    [full_dispatch_request] below. *)
Definition get_or_404 (i : Z) : handler Todo :=
  λ _ s,
    match find (λ x, bool_decide (id x = i)) (rows s) with
    | Some todo => (Return todo, s)
    | None => (Abort 404, s)
    end.

(** [Todo.query.order_by(Todo.created_at.desc()).all()] *)
Definition query_order_by_created_at_desc_all : handler (list Todo) :=
  λ _ s, (Return (order_by_created_at_desc (rows s)), s).

Definition record (c : change) : handler () :=
  λ _ s, (Return (), {| rows := rows s; pending := pending s ++ [c] |}).

(** [db.session.add(Todo(title=title))] *)
Definition session_add (new_title : string) : handler () :=
  record (Insert new_title).

(** [db.session.delete(todo)] *)
Definition session_delete (todo : Todo) : handler () :=
  record (DeleteRow (id todo)).

(** [todo.completed = value] *)
Definition set_completed (todo : Todo) (value : bool) : handler () :=
  record (UpdateCompleted (id todo) value).

(** [todo.title = value] *)
Definition set_title (todo : Todo) (value : string) : handler () :=
  record (UpdateTitle (id todo) value).

(** [db.session.commit()]: flush the unit of work and make it durable. *)
Definition session_commit : handler () :=
  λ ctx s, (Return (), {| rows := flush (utcnow ctx) (pending s) (rows s); pending := [] |}).

(** ** Responses *)

Inductive response :=
| Rendered (template : string) (todos : list Todo)
| Redirect (location : string)
| HttpError (code : Z).

Definition render_template (template : string) (todos : list Todo) : response :=
  Rendered template todos.

Definition redirect (location : string) : response := Redirect location.

(** [url_for]: the rule registered for a view function. *)
Definition url_for (endpoint : string) : string :=
  if decide (endpoint = "index") then "/"
  else if decide (endpoint = "add_todo") then "/add"
  else "".

(** Python truthiness of [Optional[str]]: [None] and [''] are false. *)
Definition truthy (v : option string) : bool :=
  match v with
  | None => false
  | Some "" => false
  | Some _ => true
  end.

(** The string held by a value already known to be truthy. *)
Definition str (v : option string) : string := default "" v.

(** ** The view functions (app.py, lines 79-171) *)

Definition index : handler response :=
  todos ← query_order_by_created_at_desc_all;
  mret (render_template "index.html" todos).

Definition add_todo : handler response :=
  title ← request_form_get "title";
  (if truthy title then
     session_add (str title);;
     session_commit
   else mret ());;
  mret (redirect (url_for "index")).

Definition toggle_todo (i : Z) : handler response :=
  todo ← get_or_404 i;
  set_completed todo (negb (completed todo));;
  session_commit;;
  mret (redirect (url_for "index")).

Definition delete_todo (i : Z) : handler response :=
  todo ← get_or_404 i;
  session_delete todo;;
  session_commit;;
  mret (redirect (url_for "index")).

Definition edit_todo (i : Z) : handler response :=
  todo ← get_or_404 i;
  title ← request_form_get "title";
  (if truthy title then
     set_title todo (str title);;
     session_commit
   else mret ());;
  mret (redirect (url_for "index")).

(** ** Serving requests *)

(** One request against the stored table: the view runs in a fresh session;
    an [abort] becomes the error response; whatever was not committed is
    dropped when the session is removed at the end of the request. *)
Definition handle (view : handler response) (ctx : context) (db : table)
  : response * table :=
  match view ctx {| rows := db; pending := [] |} with
  | (Return resp, s) => (resp, rows s)
  | (Abort code, s) => (HttpError code, rows s)
  end.

(** The five routes. *)
Inductive request :=
| GET_index
| POST_add
| GET_toggle (i : Z)
| GET_delete (i : Z)
| POST_edit (i : Z).

Definition route (r : request) : handler response :=
  match r with
  | GET_index => index
  | POST_add => add_todo
  | GET_toggle i => toggle_todo i
  | GET_delete i => delete_todo i
  | POST_edit i => edit_todo i
  end.

(** The id an id-addressed route targets. *)
Definition target (r : request) : option Z :=
  match r with
  | GET_toggle i | GET_delete i | POST_edit i => Some i
  | GET_index | POST_add => None
  end.

Definition serve (ctx : context) (r : request) (db : table) : response * table :=
  handle (route r) ctx db.

(** An SQLite INTEGER is a signed 64-bit number: the ids of stored rows are
    such numbers, and sqlite3 binds no other Python [int] as a parameter. *)
Definition sqlite_integer (i : Z) : bool :=
  ((- 2 ^ 63 <=? i) && (i <? 2 ^ 63))%Z.

(** A request as Flask answers it.  The converter [<int:id>] hands the view
    any non-negative decimal number of the URL.  When that number is not an
    SQLite INTEGER, binding it in the SELECT of [get_or_404] raises
    [OverflowError]: the table has not been read, nothing is written, and
    Flask answers the unhandled exception with 500.  For every other request
    the answer is that of the view. *)
Definition full_dispatch_request (ctx : context) (r : request) (db : table)
  : response * table :=
  match target r with
  | Some i => if sqlite_integer i then serve ctx r db else (HttpError 500, db)
  | None => serve ctx r db
  end.

(** A history of requests, each with its own form data and clock reading. *)
Fixpoint run (history : list (context * request)) (db : table) : table :=
  match history with
  | [] => db
  | (ctx, r) :: rest => run rest (snd (serve ctx r db))
  end.

(** What the listing shows for a stored table. *)
Definition listing (ctx : context) (db : table) : list Todo :=
  match fst (handle index ctx db) with
  | Rendered _ todos => todos
  | _ => []
  end.

(** ** Properties of stored tables *)

(** Every stored title is a non-empty string. *)
Definition titles_nonempty (db : table) : Prop := Forall (λ x, title x ≠ "") db.

(** A title one character wider than the declared column: ['a' * 201]. *)
Definition overlong_title : string :=
  String.string_of_list_ascii (replicate (S title_width) (Ascii.ascii_of_nat 97)).

(** Only blanks: every character is a space, a tab, a line break or a form
    feed. *)
Fixpoint whitespace_only (s : string) : bool :=
  match s with
  | EmptyString => true
  | String c s' => Ascii.is_space c && whitespace_only s'
  end.

(** The statement an id-addressed view commits once [get_or_404] has found
    its row, if it commits one. *)
Definition committed_change (ctx : context) (r : request) (todo : Todo)
  : option change :=
  match r with
  | GET_toggle _ => Some (UpdateCompleted (id todo) (negb (completed todo)))
  | GET_delete _ => Some (DeleteRow (id todo))
  | POST_edit _ =>
      if truthy (multidict_get "title" (form ctx))
      then Some (UpdateTitle (id todo) (str (multidict_get "title" (form ctx))))
      else None
  | GET_index | POST_add => None
  end.

(** No [':'] among the characters of a string. *)
Fixpoint colon_free (s : string) : bool :=
  match s with
  | "" => true
  | String c s' => negb (Ascii.eqb c ":") && colon_free s'
  end.

(** The primary key an UPDATE or DELETE selects by. *)
Definition change_target (c : change) : option Z :=
  match c with
  | Insert _ => None
  | UpdateCompleted i _ | UpdateTitle i _ | DeleteRow i => Some i
  end.

(** ** The order of the listing *)

#[global] Instance newest_first_total : Total newest_first.
Proof. intros a b. unfold newest_first. lia. Qed.

#[global] Instance newest_first_trans : Transitive newest_first.
Proof. intros a b c. unfold newest_first. lia. Qed.

(** ** Equations of the views

    Each view, run against a stored table, reduces to one lookup and at most
    one statement. *)

Section equations.
Context (ctx : context) (db : table).

Lemma serve_index :
  serve ctx GET_index db = (Rendered "index.html" (order_by_created_at_desc db), db).
Proof. reflexivity. Qed.

Lemma serve_add :
  serve ctx POST_add db =
    (Redirect "/",
     if truthy (multidict_get "title" (form ctx))
     then apply_change (utcnow ctx) (Insert (str (multidict_get "title" (form ctx)))) db
     else db).
Proof.
  unfold serve, handle, route, add_todo, mbind, handler_bind, request_form_get.
  destruct (truthy _); reflexivity.
Qed.

Lemma serve_toggle i :
  serve ctx (GET_toggle i) db =
    match find (λ x, bool_decide (id x = i)) db with
    | Some todo =>
        (Redirect "/",
         apply_change (utcnow ctx) (UpdateCompleted (id todo) (negb (completed todo))) db)
    | None => (HttpError 404, db)
    end.
Proof.
  unfold serve, handle, route, toggle_todo, mbind, handler_bind, get_or_404; cbn.
  destruct (find _ db); reflexivity.
Qed.

Lemma serve_delete i :
  serve ctx (GET_delete i) db =
    match find (λ x, bool_decide (id x = i)) db with
    | Some todo => (Redirect "/", apply_change (utcnow ctx) (DeleteRow (id todo)) db)
    | None => (HttpError 404, db)
    end.
Proof.
  unfold serve, handle, route, delete_todo, mbind, handler_bind, get_or_404; cbn.
  destruct (find _ db); reflexivity.
Qed.

Lemma serve_edit i :
  serve ctx (POST_edit i) db =
    match find (λ x, bool_decide (id x = i)) db with
    | Some todo =>
        (Redirect "/",
         if truthy (multidict_get "title" (form ctx))
         then apply_change (utcnow ctx)
                (UpdateTitle (id todo) (str (multidict_get "title" (form ctx)))) db
         else db)
    | None => (HttpError 404, db)
    end.
Proof.
  unfold serve, handle, route, edit_todo, mbind, handler_bind, get_or_404,
    request_form_get; cbn.
  destruct (find _ db); [|reflexivity].
  destruct (truthy _); reflexivity.
Qed.
End equations.

(** ** Lookup by primary key *)

Lemma lookup_id_None (i : Z) (db : table) :
  find (λ x, bool_decide (id x = i)) db = None ↔ ∀ x, x ∈ db → id x ≠ i.
Proof.
  induction db as [|y db IH]; cbn.
  - split; [|done]. intros _ x Hx. by apply elem_of_nil in Hx.
  - case_bool_decide as Hy.
    + split; [done|]. intros H. destruct (H y); [left | done].
    + rewrite IH. split.
      * intros H x [->|Hx]%elem_of_cons; auto.
      * intros H x Hx. apply H. by right.
Qed.

Lemma lookup_id_Some (i : Z) (db : table) (todo : Todo) :
  find (λ x, bool_decide (id x = i)) db = Some todo → todo ∈ db ∧ id todo = i.
Proof.
  induction db as [|y db IH]; cbn; [done|].
  case_bool_decide as Hy.
  - intros [= <-]. split; [left | done].
  - intros [H1 H2]%IH. split; [by right | done].
Qed.

Lemma lookup_id_stored (db : table) (x : Todo) :
  x ∈ db → ∃ todo, find (λ y, bool_decide (id y = id x)) db = Some todo ∧ id todo = id x.
Proof.
  intros Hx.
  destruct (find _ db) as [todo|] eqn:Hfind.
  - exists todo. split; [done|]. by apply lookup_id_Some in Hfind as [_ ?].
  - exfalso. by eapply lookup_id_None in Hfind.
Qed.

Lemma primary_key_inj (db : table) (x y : Todo) :
  primary_key db → x ∈ db → y ∈ db → id x = id y → x = y.
Proof.
  unfold primary_key. induction db as [|z db IH]; cbn.
  - intros _ Hx. by apply elem_of_nil in Hx.
  - intros [Hz Hnd]%NoDup_cons [->|Hx]%elem_of_cons [->|Hy]%elem_of_cons Heq; auto.
    + destruct Hz. rewrite Heq. by apply list_elem_of_fmap_2.
    + destruct Hz. rewrite <- Heq. by apply list_elem_of_fmap_2.
Qed.

Lemma lookup_id_primary_key (db : table) (x : Todo) :
  primary_key db → x ∈ db → find (λ y, bool_decide (id y = id x)) db = Some x.
Proof.
  intros Hpk Hx.
  destruct (lookup_id_stored db x Hx) as (todo & Hfind & Hid).
  rewrite Hfind. f_equal.
  apply lookup_id_Some in Hfind as [Hin _].
  by apply (primary_key_inj db).
Qed.

(** The ids of the stored rows are not touched by an UPDATE. *)
Lemma ids_update (f : Todo → Todo) (i : Z) (db : table) :
  (∀ y, id (f y) = id y) →
  id <$> ((λ y, if decide (id y = i) then f y else y) <$> db) = id <$> db.
Proof.
  intros Hf. rewrite <- list_fmap_compose.
  apply list_fmap_ext. intros _ y _; cbn. by case_decide.
Qed.

(** Under the primary key, selecting by id selects one row. *)
Lemma update_by_id_one (f : Todo → Todo) (db : table) (x : Todo) :
  primary_key db → x ∈ db →
  (λ y, if decide (id y = id x) then f y else y) <$> db
  = (λ y, if decide (y = x) then f x else y) <$> db.
Proof.
  intros Hpk Hx. apply Forall_fmap_ext, Forall_forall. intros y Hy.
  destruct (decide (id y = id x)) as [Heq|Hne].
  - assert (y = x) as -> by by apply (primary_key_inj db).
    by rewrite decide_True.
  - rewrite decide_False; [done|]. by intros ->.
Qed.

(** A DELETE by an id that no row carries removes nothing. *)
Lemma delete_absent (i : Z) (db : table) :
  (∀ y, y ∈ db → id y ≠ i) → filter (λ y, id y ≠ i) db = db.
Proof.
  induction db as [|z db IH]; [done|]. intros H.
  rewrite filter_cons_True by (apply H; left).
  f_equal. apply IH. intros y Hy. apply H. by right.
Qed.

Lemma delete_by_id_one (db : table) (x : Todo) :
  primary_key db → x ∈ db → db ≡ₚ x :: filter (λ y, id y ≠ id x) db.
Proof.
  unfold primary_key. induction db as [|z db IH].
  - intros _ Hx. by apply elem_of_nil in Hx.
  - rewrite fmap_cons. intros [Hz Hnd]%NoDup_cons Hx.
    destruct (decide (id z = id x)) as [Heq|Hne].
    + rewrite filter_cons_False by (intros H; by apply H).
      assert (z = x) as ->.
      { apply elem_of_cons in Hx as [->|Hx]; [done|].
        destruct Hz. rewrite Heq. by apply list_elem_of_fmap_2. }
      rewrite delete_absent; [done|].
      intros y Hy Hid. destruct Hz. rewrite <- Hid. by apply list_elem_of_fmap_2.
    + rewrite filter_cons_True by done.
      apply elem_of_cons in Hx as [->|Hx]; [done|].
      rewrite (IH Hnd Hx) at 1. apply Permutation_swap.
Qed.

(** After a DELETE by id, no row carries that id. *)
Lemma delete_gone (i : Z) (db : table) :
  find (λ y, bool_decide (id y = i)) (filter (λ y, id y ≠ i) db) = None.
Proof.
  apply lookup_id_None. by intros y [? _]%list_elem_of_filter.
Qed.

(** What every id-addressed route does: 404 and nothing else when the id is
    not stored, a redirect to the listing when it is. *)
Lemma serve_target (ctx : context) (r : request) (i : Z) (db : table) :
  target r = Some i →
  match find (λ x, bool_decide (id x = i)) db with
  | Some _ => ∃ db', serve ctx r db = (Redirect "/", db')
  | None => serve ctx r db = (HttpError 404, db)
  end.
Proof.
  destruct r as [| |j|j|j]; intros [= ->].
  - rewrite serve_toggle. destruct (find _ db); eauto.
  - rewrite serve_delete. destruct (find _ db); eauto.
  - rewrite serve_edit. destruct (find _ db); eauto.
Qed.

(** ** The INSERT *)

Lemma rowid_bound (b : Z) (db : table) :
  (b ≤ foldr (λ x m, Z.max (id x) m) b db)%Z ∧
  ∀ x, x ∈ db → (id x ≤ foldr (λ x m, Z.max (id x) m) b db)%Z.
Proof.
  induction db as [|y db [IHb IH]]; cbn.
  - split; [lia|]. intros x Hx. by apply elem_of_nil in Hx.
  - split; [lia|]. intros x [->|Hx]%elem_of_cons; [lia|].
    specialize (IH x Hx). lia.
Qed.

(** The rowid SQLite hands out is above every rowid in use. *)
Lemma next_rowid_above (db : table) (x : Todo) :
  x ∈ db → (id x < next_rowid db)%Z.
Proof.
  destruct db as [|t db]; [by intros ?%elem_of_nil|]. cbn.
  destruct (rowid_bound (id t) db) as [Hb Hdb].
  intros [->|Hx]%elem_of_cons; [lia|]. specialize (Hdb x Hx). lia.
Qed.

Lemma next_rowid_fresh (db : table) : next_rowid db ∉ id <$> db.
Proof.
  intros (x & Heq & Hx)%list_elem_of_fmap.
  apply next_rowid_above in Hx. lia.
Qed.

(** A truthy form value is a non-empty string. *)
Lemma truthy_str (v : option string) : truthy v = true → v = Some (str v) ∧ str v ≠ "".
Proof. by destruct v as [[|c s]|]. Qed.

Lemma truthy_Some (s : string) : s ≠ "" → truthy (Some s) = true.
Proof. by destruct s. Qed.

(** ** The listing *)

Lemma insert_newest_first_Permutation (x : Todo) (l : list Todo) :
  insert_newest_first x l ≡ₚ x :: l.
Proof.
  induction l as [|y l IH]; cbn; [done|].
  case_decide; [done|]. by rewrite IH, Permutation_swap.
Qed.

Lemma order_by_created_at_desc_Permutation (db : table) :
  order_by_created_at_desc db ≡ₚ db.
Proof.
  induction db as [|x db IH]; cbn; [done|].
  by rewrite insert_newest_first_Permutation, IH.
Qed.

Lemma insert_newest_first_sorted (x : Todo) (l : list Todo) :
  StronglySorted newest_first l →
  StronglySorted newest_first (insert_newest_first x l).
Proof.
  induction 1 as [|y l Hsorted IH Hy]; cbn.
  - repeat constructor.
  - case_decide as Hxy.
    + constructor; [by constructor|]. constructor; [done|].
      eapply Forall_impl; [exact Hy|]. intros z Hz. by trans y.
    + constructor; [done|].
      rewrite insert_newest_first_Permutation. constructor; [|done].
      by destruct (total newest_first x y).
Qed.

Lemma order_by_created_at_desc_sorted (db : table) :
  StronglySorted newest_first (order_by_created_at_desc db).
Proof.
  induction db as [|x db IH]; cbn; [constructor|].
  by apply insert_newest_first_sorted.
Qed.

Lemma listing_sorted (ctx : context) (db : table) :
  listing ctx db = order_by_created_at_desc db.
Proof. reflexivity. Qed.

(** A row strictly newer than all the others heads the listing. *)
Lemma newest_heads_listing (db : table) (new : Todo) :
  (∀ x, x ∈ db → (created_at x < created_at new)%Z) →
  head (order_by_created_at_desc (db ++ [new])) = Some new.
Proof.
  intros Hnew.
  pose proof (order_by_created_at_desc_Permutation (db ++ [new])) as Hperm.
  pose proof (order_by_created_at_desc_sorted (db ++ [new])) as Hsort.
  destruct (order_by_created_at_desc (db ++ [new])) as [|h l].
  - apply Permutation_nil_l in Hperm. by destruct db.
  - cbn. f_equal.
    assert (h ∈ db ++ [new]) as Hh by (rewrite <- Hperm; left).
    assert (new ∈ h :: l) as Hin.
    { rewrite Hperm. apply elem_of_app. right. left. }
    apply elem_of_app in Hh as [Hh|Hh]; [|by apply list_elem_of_singleton in Hh].
    apply elem_of_cons in Hin as [->|Hin]; [done|].
    apply StronglySorted_inv in Hsort as [_ Hall].
    rewrite Forall_forall in Hall. specialize (Hall new Hin).
    specialize (Hnew h Hh). unfold newest_first in Hall. lia.
Qed.

(** ** Invariants of the table *)

Lemma titles_nonempty_serve (ctx : context) (r : request) (db : table) :
  titles_nonempty db → titles_nonempty (snd (serve ctx r db)).
Proof.
  unfold titles_nonempty. intros Hdb. destruct r as [| |i|i|i].
  - by rewrite serve_index.
  - rewrite serve_add; cbn.
    destruct (truthy _) eqn:Hv; [|done].
    apply truthy_str in Hv as [_ Hv]. apply Forall_app. split; [done|].
    by apply Forall_singleton.
  - rewrite serve_toggle. destruct (find _ db); [|done]. cbn.
    apply Forall_fmap. eapply Forall_impl; [done|].
    intros y Hy; cbn. by case_decide.
  - rewrite serve_delete. destruct (find _ db); [|done]. cbn.
    rewrite Forall_forall in Hdb. apply Forall_forall.
    intros y [_ Hy]%list_elem_of_filter. by apply Hdb.
  - rewrite serve_edit. destruct (find _ db); [|done]. cbn.
    destruct (truthy _) eqn:Hv; [|done].
    apply truthy_str in Hv as [_ Hv]. cbn.
    apply Forall_fmap. eapply Forall_impl; [done|].
    intros y Hy; cbn. by case_decide.
Qed.

(** The primary key holds in every table the application builds. *)
Lemma primary_key_serve (ctx : context) (r : request) (db : table) :
  primary_key db → primary_key (snd (serve ctx r db)).
Proof.
  unfold primary_key. intros Hdb. destruct r as [| |i|i|i].
  - by rewrite serve_index.
  - rewrite serve_add; cbn. destruct (truthy _); [|done]. cbn.
    rewrite fmap_app. apply NoDup_app. split; [done|]. split.
    + intros y Hy ->%list_elem_of_singleton. by apply next_rowid_fresh in Hy.
    + apply NoDup_singleton.
  - rewrite serve_toggle. destruct (find _ db); [|done]. cbn.
    by rewrite ids_update.
  - rewrite serve_delete. destruct (find _ db); [|done]. cbn.
    eapply sublist_NoDup; [done|]. apply fmap_sublist, sublist_filter.
  - rewrite serve_edit. destruct (find _ db); [|done]. cbn.
    destruct (truthy _); [|done]. cbn. by rewrite ids_update.
Qed.

Lemma primary_key_run (history : list (context * request)) (db : table) :
  primary_key db → primary_key (run history db).
Proof.
  revert db. induction history as [|[ctx r] history IH]; intros db Hdb; [done|].
  cbn. by apply IH, primary_key_serve.
Qed.

(** ** The scenario of the specification

    add "Buy milk", toggle it, rename it to "Buy oat milk", delete it; the
    listing is read after each step. *)

Example scenario_add :
  serve (mkContext [("title", "Buy milk")] 1) POST_add []
  = (Redirect "/", [mkTodo 1 "Buy milk" false 1]).
Proof. reflexivity. Qed.

Example scenario_toggle :
  serve (mkContext [] 2) (GET_toggle 1) [mkTodo 1 "Buy milk" false 1]
  = (Redirect "/", [mkTodo 1 "Buy milk" true 1]).
Proof. reflexivity. Qed.

Example scenario_edit :
  serve (mkContext [("title", "Buy oat milk")] 3) (POST_edit 1)
    [mkTodo 1 "Buy milk" true 1]
  = (Redirect "/", [mkTodo 1 "Buy oat milk" true 1]).
Proof. reflexivity. Qed.

Example scenario_delete :
  serve (mkContext [] 4) (GET_delete 1) [mkTodo 1 "Buy oat milk" true 1]
  = (Redirect "/", []).
Proof. reflexivity. Qed.

Example scenario_listing :
  listing (mkContext [] 5)
    (run [(mkContext [("title", "Buy milk")] 1, POST_add);
          (mkContext [] 2, GET_toggle 1);
          (mkContext [("title", "Buy oat milk")] 3, POST_edit 1)] [])
  = [mkTodo 1 "Buy oat milk" true 1].
Proof. reflexivity. Qed.

(** ** The claims *)

(** C1 does not hold of the code.  The views are written to answer 404 for
    an id that is not stored ("Find todo by ID, or return 404 error if not
    found"), but an id beyond the SQLite INTEGER range, which the route
    accepts, is answered with 500 by toggle, delete and edit alike, although
    no stored item has that id.  The table is left as it was. *)
Theorem id_beyond_sqlite_integer_500 :
  (∀ x, x ∈ [mkTodo 1 "Buy milk" false 7] → id x ≠ 9223372036854775808%Z) ∧
  full_dispatch_request (mkContext [] 9) (GET_toggle 9223372036854775808)
    [mkTodo 1 "Buy milk" false 7]
  = (HttpError 500, [mkTodo 1 "Buy milk" false 7]) ∧
  full_dispatch_request (mkContext [] 9) (GET_delete 9223372036854775808)
    [mkTodo 1 "Buy milk" false 7]
  = (HttpError 500, [mkTodo 1 "Buy milk" false 7]) ∧
  full_dispatch_request (mkContext [("title", "Walk")] 9)
    (POST_edit 9223372036854775808) [mkTodo 1 "Buy milk" false 7]
  = (HttpError 500, [mkTodo 1 "Buy milk" false 7]) ∧
  HttpError 500 ≠ HttpError 404.
Proof.
  split; [|by repeat split].
  intros x ->%list_elem_of_singleton. discriminate.
Qed.

(** C3. Editing a stored item with a non-empty title replaces its title with
    exactly that string (id, completed flag and timestamp stay, and so do the
    other items); editing it with the empty title changes nothing.  Both
    answer with the redirect to the listing. *)
Theorem edit_todo_title (ctx : context) (db : table) (x : Todo) :
  x ∈ db →
  (∀ s, s ≠ "" → multidict_get "title" (form ctx) = Some s →
     serve ctx (POST_edit (id x)) db =
       (Redirect "/",
        (λ y, if decide (id y = id x)
              then {| id := id y; title := s;
                      completed := completed y; created_at := created_at y |}
              else y) <$> db)) ∧
  (multidict_get "title" (form ctx) = Some "" →
     serve ctx (POST_edit (id x)) db = (Redirect "/", db)).
Proof.
  intros Hx.
  destruct (lookup_id_stored db x Hx) as (todo & Hfind & Hid).
  rewrite serve_edit, Hfind. split.
  - intros s Hs ->. destruct s; [done|]. cbn. by rewrite Hid.
  - by intros ->.
Qed.

Lemma edit_todo_title_witness :
  mkTodo 1 "Buy milk" true 7 ∈ [mkTodo 1 "Buy milk" true 7] ∧
  serve (mkContext [("title", "Buy oat milk")] 9) (POST_edit 1)
    [mkTodo 1 "Buy milk" true 7]
  = (Redirect "/", [mkTodo 1 "Buy oat milk" true 7]) ∧
  serve (mkContext [("title", "")] 9) (POST_edit 1) [mkTodo 1 "Buy milk" true 7]
  = (Redirect "/", [mkTodo 1 "Buy milk" true 7]).
Proof.
  assert (mkTodo 1 "Buy milk" true 7 ∈ [mkTodo 1 "Buy milk" true 7]) as Hx by left.
  split; [exact Hx|]. split.
  - apply (edit_todo_title (mkContext [("title", "Buy oat milk")] 9) _ _ Hx);
      [discriminate | reflexivity].
  - apply (edit_todo_title (mkContext [("title", "")] 9) _ _ Hx). reflexivity.
Defined.

(** C4. Toggling a stored item flips its completed flag and keeps its id,
    title and timestamp, every other item stays as it is, and a second
    toggle of the same id restores the table, hence the flag. *)
Theorem toggle_todo_flips (ctx ctx' : context) (db : table) (x : Todo) :
  primary_key db → x ∈ db →
  ∃ x' db',
    x' = {| id := id x; title := title x;
            completed := negb (completed x); created_at := created_at x |} ∧
    db' = (λ y, if decide (y = x) then x' else y) <$> db ∧
    serve ctx (GET_toggle (id x)) db = (Redirect "/", db') ∧
    serve ctx' (GET_toggle (id x)) db' = (Redirect "/", db).
Proof.
  intros Hpk Hx. eexists _, _. split; [reflexivity|]. split; [reflexivity|].
  set (x' := mkTodo _ _ _ _).
  assert (apply_change (utcnow ctx)
            (UpdateCompleted (id x) (negb (completed x))) db
          = (λ y, if decide (y = x) then x' else y) <$> db) as Hfirst.
  { cbn. by rewrite (update_by_id_one (with_completed _) db x). }
  split.
  - by rewrite serve_toggle, (lookup_id_primary_key db x), Hfirst.
  - rewrite <- Hfirst. cbn.
    set (db' := _ <$> db).
    assert (primary_key db') as Hpk'.
    { unfold primary_key, db'. by rewrite ids_update. }
    assert (x' ∈ db') as Hx'.
    { unfold db'. apply list_elem_of_fmap. exists x. by rewrite decide_True. }
    pose proof (lookup_id_primary_key db' x' Hpk' Hx') as Hfind.
    change (id x') with (id x) in Hfind.
    rewrite serve_toggle, Hfind. f_equal.
    cbn. unfold db'. rewrite <- list_fmap_compose.
    rewrite <- (list_fmap_id db) at 2.
    apply Forall_fmap_ext, Forall_forall. intros y Hy; cbn.
    destruct (decide (id y = id x)) as [Heq|Hne]; cbn.
    + assert (y = x) as -> by by apply (primary_key_inj db).
      rewrite decide_True by done.
      unfold with_completed; cbn. rewrite negb_involutive. by destruct x.
    + by rewrite decide_False.
Qed.

Lemma toggle_todo_flips_witness :
  primary_key [mkTodo 1 "Buy milk" false 7; mkTodo 2 "Walk" true 8] ∧
  mkTodo 1 "Buy milk" false 7 ∈ [mkTodo 1 "Buy milk" false 7; mkTodo 2 "Walk" true 8] ∧
  ∃ x' db',
    x' = mkTodo 1 "Buy milk" true 7 ∧
    db' = [x'; mkTodo 2 "Walk" true 8] ∧
    serve (mkContext [] 9) (GET_toggle 1)
      [mkTodo 1 "Buy milk" false 7; mkTodo 2 "Walk" true 8] = (Redirect "/", db') ∧
    serve (mkContext [] 10) (GET_toggle 1) db'
      = (Redirect "/", [mkTodo 1 "Buy milk" false 7; mkTodo 2 "Walk" true 8]).
Proof.
  assert (primary_key [mkTodo 1 "Buy milk" false 7; mkTodo 2 "Walk" true 8]) as Hpk.
  { unfold primary_key. compute_done. }
  assert (mkTodo 1 "Buy milk" false 7
            ∈ [mkTodo 1 "Buy milk" false 7; mkTodo 2 "Walk" true 8]) as Hx by left.
  split; [exact Hpk|]. split; [exact Hx|].
  exact (toggle_todo_flips (mkContext [] 9) (mkContext [] 10) _ _ Hpk Hx).
Defined.

(** C5. Deleting a stored item removes that row and no other: the rows with
    a different id stay, in their order, and the table shrinks by exactly
    the deleted item.  From then on toggle, delete and edit on that id answer
    404 and change nothing. *)
Theorem delete_todo_removes (ctx : context) (db : table) (x : Todo) :
  primary_key db → x ∈ db →
  ∃ db',
    serve ctx (GET_delete (id x)) db = (Redirect "/", db') ∧
    db' = filter (λ y, id y ≠ id x) db ∧
    db ≡ₚ x :: db' ∧
    ∀ ctx' r, target r = Some (id x) → serve ctx' r db' = (HttpError 404, db').
Proof.
  intros Hpk Hx. eexists. split; [|split; [reflexivity|split]].
  - by rewrite serve_delete, (lookup_id_primary_key db x).
  - by apply delete_by_id_one.
  - intros ctx' r Hr.
    pose proof (serve_target ctx' r (id x) (filter (λ y, id y ≠ id x) db) Hr) as H.
    by rewrite delete_gone in H.
Qed.

Lemma delete_todo_removes_witness :
  primary_key [mkTodo 1 "Buy milk" false 7; mkTodo 2 "Walk" true 8] ∧
  mkTodo 2 "Walk" true 8 ∈ [mkTodo 1 "Buy milk" false 7; mkTodo 2 "Walk" true 8] ∧
  ∃ db',
    serve (mkContext [] 9) (GET_delete 2)
      [mkTodo 1 "Buy milk" false 7; mkTodo 2 "Walk" true 8] = (Redirect "/", db') ∧
    db' = [mkTodo 1 "Buy milk" false 7] ∧
    [mkTodo 1 "Buy milk" false 7; mkTodo 2 "Walk" true 8]
      ≡ₚ mkTodo 2 "Walk" true 8 :: db' ∧
    ∀ ctx' r, target r = Some 2%Z → serve ctx' r db' = (HttpError 404, db').
Proof.
  assert (primary_key [mkTodo 1 "Buy milk" false 7; mkTodo 2 "Walk" true 8]) as Hpk.
  { unfold primary_key. compute_done. }
  assert (mkTodo 2 "Walk" true 8
            ∈ [mkTodo 1 "Buy milk" false 7; mkTodo 2 "Walk" true 8]) as Hx
    by (right; left).
  split; [exact Hpk|]. split; [exact Hx|].
  exact (delete_todo_removes (mkContext [] 9) _ _ Hpk Hx).
Defined.

(** C6. The listing renders exactly the stored items (each as often as it is
    stored), the later [created_at] first, and changes nothing; on the empty
    table it renders the empty list. *)
Theorem index_lists_newest_first (ctx : context) (db : table) :
  (∃ todos,
     serve ctx GET_index db = (Rendered "index.html" todos, db) ∧
     todos ≡ₚ db ∧
     StronglySorted (λ a b, (created_at b ≤ created_at a)%Z) todos) ∧
  serve ctx GET_index [] = (Rendered "index.html" [], []).
Proof.
  split; [|reflexivity].
  exists (order_by_created_at_desc db). split; [apply serve_index|]. split.
  - apply order_by_created_at_desc_Permutation.
  - apply order_by_created_at_desc_sorted.
Qed.

(** C2, as the code has it.  Creating with a non-empty title appends exactly
    one row with that title, [completed = False] and the clock reading as
    timestamp, under an id no stored row carries; the stored rows stay as
    they are and the listing grows by one.  The new item heads the listing
    when the clock reading is later than every stored timestamp: the listing
    is ordered by [created_at] alone. *)
Theorem add_todo_creates (ctx ctx' : context) (db : table) (t : string) :
  multidict_get "title" (form ctx) = Some t → t ≠ "" →
  ∃ new,
    serve ctx POST_add db = (Redirect "/", db ++ [new]) ∧
    title new = t ∧ completed new = false ∧ created_at new = utcnow ctx ∧
    (id new ∉ (id <$> db)) ∧
    length (listing ctx' (db ++ [new])) = S (length (listing ctx' db)) ∧
    ((∀ x, x ∈ db → (created_at x < utcnow ctx)%Z) →
     head (listing ctx' (db ++ [new])) = Some new).
Proof.
  intros Hform Ht.
  exists {| id := next_rowid db; title := t;
            completed := false; created_at := utcnow ctx |}.
  split; [|repeat split].
  - by rewrite serve_add, Hform, truthy_Some.
  - apply next_rowid_fresh.
  - rewrite !listing_sorted, !order_by_created_at_desc_Permutation, length_app; cbn. lia.
  - intros Hclock. rewrite listing_sorted. by apply newest_heads_listing.
Qed.

Lemma add_todo_creates_witness :
  multidict_get "title" (form (mkContext [("title", "Walk")] 9)) = Some "Walk" ∧
  "Walk" ≠ "" ∧
  ∃ new,
    serve (mkContext [("title", "Walk")] 9) POST_add [mkTodo 1 "Buy milk" true 7]
      = (Redirect "/", [mkTodo 1 "Buy milk" true 7] ++ [new]) ∧
    title new = "Walk" ∧ completed new = false ∧ created_at new = 9%Z ∧
    (id new ∉ (id <$> [mkTodo 1 "Buy milk" true 7])) ∧
    length (listing (mkContext [] 10) ([mkTodo 1 "Buy milk" true 7] ++ [new]))
      = S (length (listing (mkContext [] 10) [mkTodo 1 "Buy milk" true 7])) ∧
    ((∀ x, x ∈ [mkTodo 1 "Buy milk" true 7] → (created_at x < 9)%Z) →
     head (listing (mkContext [] 10) ([mkTodo 1 "Buy milk" true 7] ++ [new]))
       = Some new).
Proof.
  split; [reflexivity|]. split; [discriminate|].
  apply (add_todo_creates (mkContext [("title", "Walk")] 9) (mkContext [] 10)
           [mkTodo 1 "Buy milk" true 7] "Walk"); [reflexivity | discriminate].
Defined.

(** C2 as stated fails when the clock reads no later than a stored
    timestamp: the item just created is listed after the older one. *)
Lemma add_todo_clock_behind_not_first :
  multidict_get "title" (form (mkContext [("title", "new")] 5)) = Some "new" ∧
  serve (mkContext [("title", "new")] 5) POST_add [mkTodo 1 "old" false 10]
    = (Redirect "/", [mkTodo 1 "old" false 10; mkTodo 2 "new" false 5]) ∧
  fst (serve (mkContext [] 6) GET_index
         [mkTodo 1 "old" false 10; mkTodo 2 "new" false 5])
    = Rendered "index.html" [mkTodo 1 "old" false 10; mkTodo 2 "new" false 5] ∧
  head (listing (mkContext [] 6) [mkTodo 1 "old" false 10; mkTodo 2 "new" false 5])
    ≠ Some (mkTodo 2 "new" false 5).
Proof. repeat split; try reflexivity. by vm_compute. Qed.

(** C7. No request makes a title empty: if every stored title is non-empty,
    it still is after any history of requests; in particular every table
    reached from the empty one has only non-empty titles. *)
Theorem titles_never_empty (history : list (context * request)) (db : table) :
  titles_nonempty db →
  titles_nonempty (run history db) ∧ titles_nonempty (run history []).
Proof.
  assert (∀ db', titles_nonempty db' → titles_nonempty (run history db')) as Hrun.
  { induction history as [|[ctx r] history IH]; intros db' Hdb'; [done|].
    cbn. by apply IH, titles_nonempty_serve. }
  intros Hdb. split; [by apply Hrun|]. apply Hrun, Forall_nil_2.
Qed.

Lemma titles_never_empty_witness :
  titles_nonempty [mkTodo 1 "Buy milk" false 7] ∧
  titles_nonempty
    (run [(mkContext [("title", "")] 8, POST_add);
          (mkContext [("title", "")] 9, POST_edit 1);
          (mkContext [("title", "Walk")] 10, POST_add)]
       [mkTodo 1 "Buy milk" false 7]) ∧
  titles_nonempty
    (run [(mkContext [("title", "")] 8, POST_add);
          (mkContext [("title", "")] 9, POST_edit 1);
          (mkContext [("title", "Walk")] 10, POST_add)] []).
Proof.
  assert (titles_nonempty [mkTodo 1 "Buy milk" false 7]) as Hdb.
  { unfold titles_nonempty. by apply Forall_singleton. }
  split; [exact Hdb|].
  exact (titles_never_empty _ _ Hdb).
Defined.

(** C8. An empty title is silently ignored.  Create writes nothing and
    answers with the redirect to the listing.  Edit writes nothing either,
    whatever id it addresses, and for a stored item, where the view gets as
    far as the title, it answers with the redirect too: no error is
    reported. *)
Theorem empty_title_writes_nothing (ctx : context) (db : table) :
  multidict_get "title" (form ctx) = Some "" →
  serve ctx POST_add db = (Redirect "/", db) ∧
  (∀ i, snd (serve ctx (POST_edit i) db) = db) ∧
  (∀ x, x ∈ db → serve ctx (POST_edit (id x)) db = (Redirect "/", db)).
Proof.
  intros Hform. split; [by rewrite serve_add, Hform|]. split.
  - intros i. rewrite serve_edit, Hform. by destruct (find _ db).
  - intros x Hx. destruct (lookup_id_stored db x Hx) as (todo & Hfind & _).
    by rewrite serve_edit, Hfind, Hform.
Qed.

Lemma empty_title_writes_nothing_witness :
  multidict_get "title" (form (mkContext [("title", "")] 9)) = Some "" ∧
  serve (mkContext [("title", "")] 9) POST_add [mkTodo 1 "Buy milk" false 7]
    = (Redirect "/", [mkTodo 1 "Buy milk" false 7]) ∧
  (∀ i, snd (serve (mkContext [("title", "")] 9) (POST_edit i)
               [mkTodo 1 "Buy milk" false 7]) = [mkTodo 1 "Buy milk" false 7]) ∧
  (∀ x, x ∈ [mkTodo 1 "Buy milk" false 7] →
        serve (mkContext [("title", "")] 9) (POST_edit (id x))
          [mkTodo 1 "Buy milk" false 7]
        = (Redirect "/", [mkTodo 1 "Buy milk" false 7])).
Proof.
  split; [reflexivity|].
  exact (empty_title_writes_nothing (mkContext [("title", "")] 9)
           [mkTodo 1 "Buy milk" false 7] eq_refl).
Defined.

(** C9 does not hold of the code: the views check the title for emptiness
    only and the engine does not check the declared width, so a title of 201
    characters posted to the empty table is stored in full. *)
Theorem add_todo_stores_overlong_title :
  String.length overlong_title = 201 ∧
  serve (mkContext [("title", overlong_title)] 0) POST_add []
    = (Redirect "/", [mkTodo 1 overlong_title false 0]) ∧
  run [(mkContext [("title", overlong_title)] 0, POST_add)] []
    = [mkTodo 1 overlong_title false 0] ∧
  ¬ Forall (λ x, (String.length (title x) ≤ title_width)%nat)
      (run [(mkContext [("title", overlong_title)] 0, POST_add)] []).
Proof.
  assert (String.length overlong_title = 201) as Hlen by by vm_compute.
  assert (serve (mkContext [("title", overlong_title)] 0) POST_add []
          = (Redirect "/", [mkTodo 1 overlong_title false 0])) as Hserve
    by by vm_compute.
  assert (run [(mkContext [("title", overlong_title)] 0, POST_add)] []
          = [mkTodo 1 overlong_title false 0]) as Hrun
    by (cbn [run]; by rewrite Hserve).
  split; [done|]. split; [done|]. split; [done|]. rewrite Hrun.
  intros [Hwide _]%Forall_cons. cbn [title] in Hwide. rewrite Hlen in Hwide.
  unfold title_width in Hwide. lia.
Qed.

(** C10. The title check of create and edit is truthiness.  A form without
    the field and a form with the empty string are treated alike: nothing is
    written, create redirects, and so does edit of a stored item.  A
    non-empty title of blanks only is a title like any other: create inserts
    it and edit stores it, character for character. *)
Theorem title_check_is_truthiness (ctx : context) (db : table) :
  (multidict_get "title" (form ctx) = None ∨
   multidict_get "title" (form ctx) = Some "" →
     serve ctx POST_add db = (Redirect "/", db) ∧
     (∀ i, snd (serve ctx (POST_edit i) db) = db) ∧
     (∀ x, x ∈ db → serve ctx (POST_edit (id x)) db = (Redirect "/", db))) ∧
  (∀ s, s ≠ "" → whitespace_only s = true →
     multidict_get "title" (form ctx) = Some s →
     (∃ new, serve ctx POST_add db = (Redirect "/", db ++ [new]) ∧ title new = s) ∧
     (∀ x, x ∈ db →
        serve ctx (POST_edit (id x)) db =
          (Redirect "/",
           (λ y, if decide (id y = id x)
                 then {| id := id y; title := s;
                         completed := completed y; created_at := created_at y |}
                 else y) <$> db))).
Proof.
  split.
  - intros Hform.
    assert (truthy (multidict_get "title" (form ctx)) = false) as Hfalse
      by by destruct Hform as [-> | ->].
    split; [by rewrite serve_add, Hfalse|]. split.
    + intros i. rewrite serve_edit, Hfalse. by destruct (find _ db).
    + intros x Hx. destruct (lookup_id_stored db x Hx) as (todo & Hfind & _).
      by rewrite serve_edit, Hfind, Hfalse.
  - intros s Hs _ Hform. split.
    + eexists. split; [by rewrite serve_add, Hform, truthy_Some|done].
    + intros x Hx. destruct (lookup_id_stored db x Hx) as (todo & Hfind & Hid).
      rewrite serve_edit, Hfind, Hform, truthy_Some by done. cbn. by rewrite Hid.
Qed.

Lemma title_check_is_truthiness_witness :
  (multidict_get "title" (form (mkContext [("note", "x")] 9)) = None ∧
   serve (mkContext [("note", "x")] 9) POST_add [mkTodo 1 "Buy milk" false 7]
     = (Redirect "/", [mkTodo 1 "Buy milk" false 7]) ∧
   serve (mkContext [("note", "x")] 9) (POST_edit 1) [mkTodo 1 "Buy milk" false 7]
     = (Redirect "/", [mkTodo 1 "Buy milk" false 7])) ∧
  (" " ≠ "" ∧ whitespace_only " " = true ∧
   multidict_get "title" (form (mkContext [("title", " ")] 9)) = Some " " ∧
   serve (mkContext [("title", " ")] 9) POST_add [mkTodo 1 "Buy milk" false 7]
     = (Redirect "/", [mkTodo 1 "Buy milk" false 7; mkTodo 2 " " false 9]) ∧
   serve (mkContext [("title", " ")] 9) (POST_edit 1) [mkTodo 1 "Buy milk" false 7]
     = (Redirect "/", [mkTodo 1 " " false 7])).
Proof.
  assert (mkTodo 1 "Buy milk" false 7 ∈ [mkTodo 1 "Buy milk" false 7]) as Hx by left.
  split.
  - destruct (title_check_is_truthiness (mkContext [("note", "x")] 9)
                [mkTodo 1 "Buy milk" false 7]) as [Hempty _].
    destruct (Hempty (or_introl eq_refl)) as (Hadd & _ & Hedit).
    split; [reflexivity|]. split; [exact Hadd | exact (Hedit _ Hx)].
  - destruct (title_check_is_truthiness (mkContext [("title", " ")] 9)
                [mkTodo 1 "Buy milk" false 7]) as [_ Hblank].
    assert (" " ≠ "") as Hne by discriminate.
    destruct (Hblank " " Hne eq_refl eq_refl) as [_ Hedit].
    split; [exact Hne|]. split; [reflexivity|]. split; [reflexivity|].
    split; [reflexivity | exact (Hedit _ Hx)].
Defined.

(** ** Further properties of the views *)

(** *** Lookup after a statement *)

Lemma lookup_id_update (g : Todo → Todo) (i j : Z) (db : table) :
  (∀ y, id (g y) = id y) →
  find (λ x, bool_decide (id x = j))
    ((λ y, if decide (id y = i) then g y else y) <$> db)
  = (λ y, if decide (id y = i) then g y else y)
      <$> find (λ x, bool_decide (id x = j)) db.
Proof.
  intros Hg. induction db as [|z db IH]; [done|]. cbn.
  assert (id (if decide (id z = i) then g z else z) = id z) as ->
    by (case_decide; auto).
  by case_bool_decide.
Qed.

Lemma lookup_id_delete (i j : Z) (db : table) :
  i ≠ j →
  find (λ x, bool_decide (id x = j)) (filter (λ y, id y ≠ i) db)
  = find (λ x, bool_decide (id x = j)) db.
Proof.
  intros Hij. induction db as [|z db IH]; [done|].
  destruct (decide (id z = i)) as [Hz|Hz].
  - rewrite filter_cons_False by (intros H; by apply H).
    cbn [find]. rewrite bool_decide_eq_false_2 by congruence. exact IH.
  - rewrite filter_cons_True by done. cbn [find]. by rewrite IH.
Qed.

Lemma delete_update (g : Todo → Todo) (i j : Z) (db : table) :
  (∀ y, id (g y) = id y) →
  filter (λ y, id y ≠ j) ((λ y, if decide (id y = i) then g y else y) <$> db)
  = (λ y, if decide (id y = i) then g y else y) <$> filter (λ y, id y ≠ j) db.
Proof.
  intros Hg. induction db as [|z db IH]; [done|].
  rewrite fmap_cons.
  assert (id (if decide (id z = i) then g z else z) = id z) as Hid
    by (case_decide; auto).
  destruct (decide (id z = j)) as [Hz|Hz].
  - rewrite !filter_cons_False; [done|..]; intros H; apply H; congruence.
  - rewrite !filter_cons_True, fmap_cons, IH; [done|..]; congruence.
Qed.

(** The id-addressed views, through the statement they commit. *)
Lemma serve_committed_change (ctx : context) (r : request) (i : Z) (db : table) :
  target r = Some i →
  serve ctx r db =
    match find (λ x, bool_decide (id x = i)) db with
    | Some todo =>
        (Redirect "/",
         match committed_change ctx r todo with
         | Some c => apply_change (utcnow ctx) c db
         | None => db
         end)
    | None => (HttpError 404, db)
    end.
Proof.
  destruct r as [| |j|j|j]; intros [= ->].
  - by rewrite serve_toggle.
  - by rewrite serve_delete.
  - rewrite serve_edit. cbn. destruct (find _ db); [|done].
    by destruct (truthy _).
Qed.

(** *** Invariants and frame *)

(** X1. The primary key is an invariant: no history of requests makes two
    stored rows share an id, neither from a table with distinct ids nor from
    the empty table. *)
Theorem ids_stay_unique (history : list (context * request)) (db : table) :
  primary_key db →
  primary_key (run history db) ∧ primary_key (run history []).
Proof.
  intros Hdb. split; [by apply primary_key_run|].
  apply primary_key_run. unfold primary_key. apply NoDup_nil_2.
Qed.

Lemma ids_stay_unique_witness :
  primary_key [mkTodo 1 "Buy milk" false 7; mkTodo 4 "Walk" true 8] ∧
  primary_key
    (run [(mkContext [("title", "Read")] 9, POST_add);
          (mkContext [] 10, GET_delete 4);
          (mkContext [("title", "Write")] 11, POST_add)]
       [mkTodo 1 "Buy milk" false 7; mkTodo 4 "Walk" true 8]) ∧
  primary_key
    (run [(mkContext [("title", "Read")] 9, POST_add);
          (mkContext [] 10, GET_delete 4);
          (mkContext [("title", "Write")] 11, POST_add)] []).
Proof.
  assert (primary_key [mkTodo 1 "Buy milk" false 7; mkTodo 4 "Walk" true 8]) as Hpk.
  { unfold primary_key. compute_done. }
  split; [exact Hpk|].
  exact (ids_stay_unique _ _ Hpk).
Defined.




(** Where a row of the table after a request comes from. *)
Lemma row_origin (ctx : context) (r : request) (db : table) (y' : Todo) :
  y' ∈ snd (serve ctx r db) →
  (∃ y, y ∈ db ∧ id y' = id y ∧ created_at y' = created_at y ∧
        (target r ≠ Some (id y) → y' = y) ∧
        (title y' = title y ∨
         r = POST_edit (id y) ∧ title y' ≠ "" ∧
         multidict_get "title" (form ctx) = Some (title y')) ∧
        (completed y' = completed y ∨ r = GET_toggle (id y))) ∨
  (r = POST_add ∧ title y' ≠ "" ∧
   multidict_get "title" (form ctx) = Some (title y') ∧
   completed y' = false ∧ created_at y' = utcnow ctx).
Proof.
  assert (∀ y, y ∈ db →
    ∃ y0, y0 ∈ db ∧ id y = id y0 ∧ created_at y = created_at y0 ∧
          (target r ≠ Some (id y0) → y = y0) ∧
          (title y = title y0 ∨
           r = POST_edit (id y0) ∧ title y ≠ "" ∧
           multidict_get "title" (form ctx) = Some (title y)) ∧
          (completed y = completed y0 ∨ r = GET_toggle (id y0))) as Hsame.
  { intros y Hy. exists y. repeat split; auto. }
  destruct (target r) as [i|] eqn:Hr.
  - rewrite (serve_committed_change ctx r i db Hr).
    destruct (find _ db) as [todo|] eqn:Hfind; [|by left; apply Hsame].
    apply lookup_id_Some in Hfind as [_ Hid]. cbn [snd].
    destruct r as [| |j|j|j]; simplify_eq/=.
    + intros (y & -> & Hy)%list_elem_of_fmap. left. exists y.
      case_decide as Hy'; [|repeat split; auto].
      repeat split; auto; [|right; by rewrite Hy'].
      intros H. destruct H. by rewrite Hy'.
    + intros [_ Hy]%list_elem_of_filter. left. by apply Hsame.
    + destruct (truthy _) eqn:Hv; [|by left; apply Hsame].
      apply truthy_str in Hv as [Hv Hne]. cbn.
      intros (y & -> & Hy)%list_elem_of_fmap. left. exists y.
      case_decide as Hy'; [|repeat split; auto].
      repeat split; auto; [|right; by rewrite Hy'].
      intros H. destruct H. by rewrite Hy'.
  - destruct r as [| |j|j|j]; try discriminate Hr.
    + rewrite serve_index. by left; apply Hsame.
    + rewrite serve_add. cbn [snd].
      destruct (truthy _) eqn:Hv; [|by left; apply Hsame].
      apply truthy_str in Hv as [Hv Hne]. cbn.
      intros [Hy| ->%list_elem_of_singleton]%elem_of_app; [by left; apply Hsame|].
      by right.
Qed.

(** X3. Where the rows of the table after a request come from.  Each is
    either the row just inserted by create (a non-empty title taken from the
    form, [completed = False], the clock reading as timestamp), or a row
    stored before, with the same id and the same [created_at]; it is that
    very row unless the request addresses its id, only an edit of its id can
    have changed its title (to the non-empty title of the form) and only a
    toggle of its id its completed flag. *)
Theorem rows_after_request (ctx : context) (r : request) (db : table) (y' : Todo) :
  y' ∈ snd (serve ctx r db) →
  (∃ y, y ∈ db ∧ id y' = id y ∧ created_at y' = created_at y ∧
        (target r ≠ Some (id y) → y' = y) ∧
        (title y' = title y ∨
         r = POST_edit (id y) ∧ title y' ≠ "" ∧
         multidict_get "title" (form ctx) = Some (title y')) ∧
        (completed y' = completed y ∨ r = GET_toggle (id y))) ∨
  (r = POST_add ∧ title y' ≠ "" ∧
   multidict_get "title" (form ctx) = Some (title y') ∧
   completed y' = false ∧ created_at y' = utcnow ctx).
Proof. apply row_origin. Qed.

Lemma rows_after_request_witness :
  mkTodo 1 "Buy milk" true 7
    ∈ snd (serve (mkContext [] 9) (GET_toggle 1)
             [mkTodo 1 "Buy milk" false 7; mkTodo 2 "Walk" true 8]) ∧
  ((∃ y, y ∈ [mkTodo 1 "Buy milk" false 7; mkTodo 2 "Walk" true 8] ∧
         id (mkTodo 1 "Buy milk" true 7) = id y ∧
         created_at (mkTodo 1 "Buy milk" true 7) = created_at y ∧
         (target (GET_toggle 1) ≠ Some (id y) → mkTodo 1 "Buy milk" true 7 = y) ∧
         (title (mkTodo 1 "Buy milk" true 7) = title y ∨
          GET_toggle 1 = POST_edit (id y) ∧
          title (mkTodo 1 "Buy milk" true 7) ≠ "" ∧
          multidict_get "title" (form (mkContext [] 9))
            = Some (title (mkTodo 1 "Buy milk" true 7))) ∧
         (completed (mkTodo 1 "Buy milk" true 7) = completed y ∨
          GET_toggle 1 = GET_toggle (id y))) ∨
   (GET_toggle 1 = POST_add ∧
    title (mkTodo 1 "Buy milk" true 7) ≠ "" ∧
    multidict_get "title" (form (mkContext [] 9))
      = Some (title (mkTodo 1 "Buy milk" true 7)) ∧
    completed (mkTodo 1 "Buy milk" true 7) = false ∧
    created_at (mkTodo 1 "Buy milk" true 7) = utcnow (mkContext [] 9))).
Proof.
  assert (mkTodo 1 "Buy milk" true 7
            ∈ snd (serve (mkContext [] 9) (GET_toggle 1)
                     [mkTodo 1 "Buy milk" false 7; mkTodo 2 "Walk" true 8])) as Hin
    by left.
  split; [exact Hin|].
  exact (rows_after_request _ _ _ _ Hin).
Defined.

(** X4. An item stays stored until a delete addresses it: after any other
    request a row with its id and its [created_at] is still in the table. *)
Theorem stored_until_deleted (ctx : context) (r : request) (db : table) (y : Todo) :
  y ∈ db → r ≠ GET_delete (id y) →
  ∃ y', y' ∈ snd (serve ctx r db) ∧ id y' = id y ∧ created_at y' = created_at y.
Proof.
  intros Hy Hr.
  assert (∀ (g : Todo → Todo) i,
    (∀ z, id (g z) = id z ∧ created_at (g z) = created_at z) →
    ∃ y', y' ∈ (λ z, if decide (id z = i) then g z else z) <$> db ∧
          id y' = id y ∧ created_at y' = created_at y) as Hupdate.
  { intros g i Hg. eexists. split; [by apply list_elem_of_fmap_2|].
    case_decide; [apply Hg | done]. }
  destruct (target r) as [i|] eqn:Htarget.
  - rewrite (serve_committed_change ctx r i db Htarget).
    destruct (find _ db) as [todo|] eqn:Hfind; [|by exists y].
    apply lookup_id_Some in Hfind as [_ Hid]. cbn [snd].
    destruct r as [| |j|j|j]; simplify_eq/=.
    + by apply Hupdate.
    + exists y. split; [|done]. apply list_elem_of_filter. split; [|done].
      intros Heq. apply Hr. by rewrite Heq.
    + destruct (truthy _); [|by exists y]. by apply Hupdate.
  - destruct r as [| |j|j|j]; try discriminate Htarget.
    + rewrite serve_index. by exists y.
    + rewrite serve_add. cbn [snd]. exists y. split; [|done].
      destruct (truthy _); [|done]. apply elem_of_app. by left.
Qed.

Lemma stored_until_deleted_witness :
  mkTodo 2 "Walk" true 8 ∈ [mkTodo 1 "Buy milk" false 7; mkTodo 2 "Walk" true 8] ∧
  GET_delete 1 ≠ GET_delete (id (mkTodo 2 "Walk" true 8)) ∧
  ∃ y', y' ∈ snd (serve (mkContext [] 9) (GET_delete 1)
                    [mkTodo 1 "Buy milk" false 7; mkTodo 2 "Walk" true 8]) ∧
        id y' = id (mkTodo 2 "Walk" true 8) ∧
        created_at y' = created_at (mkTodo 2 "Walk" true 8).
Proof.
  assert (mkTodo 2 "Walk" true 8
            ∈ [mkTodo 1 "Buy milk" false 7; mkTodo 2 "Walk" true 8]) as Hy
    by (right; left).
  assert (GET_delete 1 ≠ GET_delete (id (mkTodo 2 "Walk" true 8))) as Hr
    by discriminate.
  split; [exact Hy|]. split; [exact Hr|].
  exact (stored_until_deleted (mkContext [] 9) _ _ _ Hy Hr).
Defined.

(** *** How requests compose *)

(** An UPDATE rewrites the rows of one id and keeps their id; a DELETE drops
    them. *)
Lemma apply_change_shape (c : change) (i : Z) :
  change_target c = Some i →
  (∃ g : Todo → Todo,
     (∀ y, id (g y) = id y) ∧
     ∀ now db, apply_change now c db
               = (λ y, if decide (id y = i) then g y else y) <$> db) ∨
  (∀ now db, apply_change now c db = filter (λ y, id y ≠ i) db).
Proof.
  destruct c as [t|k b|k t|k]; intros [= ->].
  - left. by exists (with_completed b).
  - left. by exists (with_title t).
  - by right.
Qed.

Lemma committed_change_target (ctx : context) (r : request) (todo : Todo) (c : change) :
  committed_change ctx r todo = Some c → change_target c = Some (id todo).
Proof.
  destruct r; cbn; try destruct (truthy _); by intros [= <-].
Qed.

(** A statement on one id leaves the lookup of another id as it was. *)
Lemma lookup_id_apply_change (now : Z) (c : change) (i j : Z) (db : table) :
  change_target c = Some i → i ≠ j →
  find (λ x, bool_decide (id x = j)) (apply_change now c db)
  = find (λ x, bool_decide (id x = j)) db.
Proof.
  intros [(g & Hg & ->)| ->]%apply_change_shape Hij.
  - rewrite lookup_id_update by done.
    destruct (find _ db) as [todo|] eqn:Hfind; [|done].
    apply lookup_id_Some in Hfind as [_ Hid]. cbn.
    by rewrite decide_False by congruence.
  - by apply lookup_id_delete.
Qed.

Lemma lookup_id_other_request (ctx : context) (r : request) (i j : Z) (db : table) :
  target r = Some i → i ≠ j →
  find (λ x, bool_decide (id x = j)) (snd (serve ctx r db))
  = find (λ x, bool_decide (id x = j)) db.
Proof.
  intros Hr Hij. rewrite (serve_committed_change ctx r i db Hr).
  destruct (find (λ x, bool_decide (id x = i)) db) as [todo|] eqn:Hfind; [|done].
  apply lookup_id_Some in Hfind as [_ Hid]. cbn [snd].
  destruct (committed_change ctx r todo) as [c|] eqn:Hc; [|done].
  apply committed_change_target in Hc.
  apply lookup_id_apply_change with (id todo); congruence.
Qed.

(** Statements on different ids can be exchanged. *)
Lemma apply_change_commute (now1 now2 : Z) (c1 c2 : change) (i j : Z) (db : table) :
  change_target c1 = Some i → change_target c2 = Some j → i ≠ j →
  apply_change now2 c2 (apply_change now1 c1 db)
  = apply_change now1 c1 (apply_change now2 c2 db).
Proof.
  intros [(g1 & Hg1 & H1)|H1]%apply_change_shape
         [(g2 & Hg2 & H2)|H2]%apply_change_shape Hij;
    rewrite !H1, !H2.
  - rewrite <- !list_fmap_compose.
    apply list_fmap_ext. intros _ y _; cbn.
    destruct (decide (id y = i)) as [Hi|Hi], (decide (id y = j)) as [Hj|Hj];
      rewrite ?Hg1, ?Hg2; repeat case_decide; congruence.
  - by rewrite delete_update.
  - by rewrite delete_update.
  - rewrite !list_filter_filter. apply list_filter_iff.
    intros y. split; intros [? ?]; by split.
Qed.

(** X5. The last edit wins: an edit with a non-empty title gives the same
    response and the same table whether or not another edit of the same id
    came just before it; in particular repeating an edit changes nothing
    more. *)
Theorem edit_last_write_wins (ctx1 ctx2 : context) (i : Z) (db : table) (t : string) :
  multidict_get "title" (form ctx2) = Some t → t ≠ "" →
  serve ctx2 (POST_edit i) (snd (serve ctx1 (POST_edit i) db))
  = serve ctx2 (POST_edit i) db.
Proof.
  intros Hform Ht. rewrite (serve_edit ctx1).
  destruct (find _ db) as [todo|] eqn:Hfind; [|done]. cbn [snd].
  destruct (truthy (multidict_get "title" (form ctx1))); [|done].
  rewrite !serve_edit. cbn [apply_change].
  rewrite lookup_id_update, Hfind by done. cbn.
  rewrite Hform, truthy_Some by done. cbn. f_equal.
  rewrite <- list_fmap_compose. apply list_fmap_ext. intros _ y _; cbn.
  by repeat (case_decide; cbn in * ).
Qed.

Lemma edit_last_write_wins_witness :
  multidict_get "title" (form (mkContext [("title", "Buy oat milk")] 10))
    = Some "Buy oat milk" ∧
  "Buy oat milk" ≠ "" ∧
  serve (mkContext [("title", "Buy oat milk")] 10) (POST_edit 1)
    (snd (serve (mkContext [("title", "Buy soy milk")] 9) (POST_edit 1)
            [mkTodo 1 "Buy milk" true 7]))
  = serve (mkContext [("title", "Buy oat milk")] 10) (POST_edit 1)
      [mkTodo 1 "Buy milk" true 7].
Proof.
  split; [reflexivity|]. split; [discriminate|].
  apply (edit_last_write_wins _ _ _ _ "Buy oat milk"); [reflexivity | discriminate].
Defined.

(** X6. Toggle and edit do not interfere, whatever ids they address (the
    same one included): either order gives the same table, and each request
    gets the response it would get without the other. *)
Theorem toggle_edit_commute (ctx1 ctx2 : context) (i j : Z) (db : table) :
  serve ctx2 (POST_edit j) (snd (serve ctx1 (GET_toggle i) db))
  = (fst (serve ctx2 (POST_edit j) db),
     snd (serve ctx1 (GET_toggle i) (snd (serve ctx2 (POST_edit j) db)))) ∧
  fst (serve ctx1 (GET_toggle i) (snd (serve ctx2 (POST_edit j) db)))
  = fst (serve ctx1 (GET_toggle i) db).
Proof.
  rewrite (serve_toggle ctx1 db i), (serve_edit ctx2 db j).
  destruct (find (λ x, bool_decide (id x = i)) db) as [ti|] eqn:Hi;
    destruct (find (λ x, bool_decide (id x = j)) db) as [tj|] eqn:Hj;
    cbn [fst snd apply_change];
    try destruct (truthy (multidict_get "title" (form ctx2))) eqn:Hv;
    cbn [fst snd apply_change];
    rewrite ?serve_toggle, ?serve_edit, ?lookup_id_update, ?Hi, ?Hj, ?Hv by done;
    cbn; try done.
  split; [|done]. f_equal.
  rewrite <- !list_fmap_compose. apply list_fmap_ext. intros _ y _; cbn.
  apply lookup_id_Some in Hj as [_ Hj].
  repeat (case_decide; cbn in * ); done.
Qed.

(** X7. Requests that address different ids commute: toggle, delete and edit
    of one id do not change the response to a toggle, delete or edit of
    another id, and the two can be served in either order with the same
    table as result. *)
Theorem requests_on_different_ids_commute
    (ctx1 ctx2 : context) (r1 r2 : request) (i j : Z) (db : table) :
  target r1 = Some i → target r2 = Some j → i ≠ j →
  serve ctx2 r2 (snd (serve ctx1 r1 db))
  = (fst (serve ctx2 r2 db), snd (serve ctx1 r1 (snd (serve ctx2 r2 db)))).
Proof.
  intros Hr1 Hr2 Hij.
  rewrite (serve_committed_change ctx2 r2 j (snd _) Hr2).
  rewrite (serve_committed_change ctx1 r1 i (snd _) Hr1).
  rewrite (lookup_id_other_request ctx1 r1 i j db Hr1 Hij).
  rewrite (lookup_id_other_request ctx2 r2 j i db Hr2) by done.
  rewrite (serve_committed_change ctx2 r2 j db Hr2).
  rewrite (serve_committed_change ctx1 r1 i db Hr1).
  destruct (find (λ x, bool_decide (id x = i)) db) as [t1|] eqn:H1;
    destruct (find (λ x, bool_decide (id x = j)) db) as [t2|] eqn:H2;
    cbn [fst snd]; try done.
  apply lookup_id_Some in H1 as [_ H1]. apply lookup_id_Some in H2 as [_ H2].
  destruct (committed_change ctx1 r1 t1) as [c1|] eqn:Hc1;
    destruct (committed_change ctx2 r2 t2) as [c2|] eqn:Hc2; try done.
  f_equal.
  apply committed_change_target in Hc1, Hc2.
  apply apply_change_commute with (id t1) (id t2); congruence.
Qed.

Lemma requests_on_different_ids_commute_witness :
  target (GET_delete 1) = Some 1%Z ∧ target (POST_edit 2) = Some 2%Z ∧
  1%Z ≠ 2%Z ∧
  serve (mkContext [("title", "Run")] 10) (POST_edit 2)
    (snd (serve (mkContext [] 9) (GET_delete 1)
            [mkTodo 1 "Buy milk" false 7; mkTodo 2 "Walk" true 8]))
  = (fst (serve (mkContext [("title", "Run")] 10) (POST_edit 2)
            [mkTodo 1 "Buy milk" false 7; mkTodo 2 "Walk" true 8]),
     snd (serve (mkContext [] 9) (GET_delete 1)
            (snd (serve (mkContext [("title", "Run")] 10) (POST_edit 2)
                    [mkTodo 1 "Buy milk" false 7; mkTodo 2 "Walk" true 8])))).
Proof.
  split; [reflexivity|]. split; [reflexivity|]. split; [discriminate|].
  apply (requests_on_different_ids_commute _ _ _ _ 1 2);
    [reflexivity | reflexivity | discriminate].
Defined.

(** X8. Create does not look for duplicates: posting the same non-empty
    title twice stores two items with that title, under different ids,
    whatever the table held before. *)
Theorem add_todo_keeps_duplicates (ctx1 ctx2 : context) (db : table) (t : string) :
  t ≠ "" →
  multidict_get "title" (form ctx1) = Some t →
  multidict_get "title" (form ctx2) = Some t →
  ∃ n1 n2,
    run [(ctx1, POST_add); (ctx2, POST_add)] db = db ++ [n1; n2] ∧
    title n1 = t ∧ title n2 = t ∧ id n1 ≠ id n2.
Proof.
  intros Ht H1 H2. cbn [run].
  rewrite (serve_add ctx1), H1, truthy_Some by done. cbn [snd apply_change str default].
  rewrite (serve_add ctx2), H2, truthy_Some by done. cbn [snd apply_change str default].
  eexists _, _. split; [by rewrite <- app_assoc|]. cbn. split; [done|]. split; [done|].
  set (n1 := mkTodo _ t false (utcnow ctx1)).
  assert (n1 ∈ db ++ [n1]) as Hin by (apply elem_of_app; right; left).
  apply next_rowid_above in Hin. cbn in Hin. lia.
Qed.

Lemma add_todo_keeps_duplicates_witness :
  "Walk" ≠ "" ∧
  multidict_get "title" (form (mkContext [("title", "Walk")] 9)) = Some "Walk" ∧
  multidict_get "title" (form (mkContext [("title", "Walk")] 10)) = Some "Walk" ∧
  ∃ n1 n2,
    run [(mkContext [("title", "Walk")] 9, POST_add);
         (mkContext [("title", "Walk")] 10, POST_add)] [mkTodo 1 "Walk" true 7]
      = [mkTodo 1 "Walk" true 7] ++ [n1; n2] ∧
    title n1 = "Walk" ∧ title n2 = "Walk" ∧ id n1 ≠ id n2.
Proof.
  split; [discriminate|]. split; [reflexivity|]. split; [reflexivity|].
  apply (add_todo_keeps_duplicates (mkContext [("title", "Walk")] 9)
           (mkContext [("title", "Walk")] 10) [mkTodo 1 "Walk" true 7] "Walk");
    [discriminate | reflexivity | reflexivity].
Defined.

(** *** The listing under UPDATE *)

(** Rewriting rows without touching [created_at] goes through the sort. *)
Lemma insert_newest_first_fmap (f : Todo → Todo) (x : Todo) (l : list Todo) :
  (∀ y, created_at (f y) = created_at y) →
  insert_newest_first (f x) (f <$> l) = f <$> insert_newest_first x l.
Proof.
  intros Hf. induction l as [|y l IH]; [done|].
  rewrite fmap_cons. cbn [insert_newest_first].
  destruct (decide (newest_first x y)) as [Hxy|Hxy].
  - by rewrite decide_True by (unfold newest_first in *; by rewrite !Hf).
  - rewrite decide_False by (unfold newest_first in *; by rewrite !Hf).
    by rewrite IH.
Qed.

Lemma order_by_created_at_desc_fmap (f : Todo → Todo) (l : list Todo) :
  (∀ y, created_at (f y) = created_at y) →
  order_by_created_at_desc (f <$> l) = f <$> order_by_created_at_desc l.
Proof.
  intros Hf. induction l as [|x l IH]; [done|].
  rewrite fmap_cons. cbn [order_by_created_at_desc].
  by rewrite IH, insert_newest_first_fmap.
Qed.

(** The listing, toggle and edit rewrite rows in place: ids and timestamps
    are kept, row by row. *)
Lemma in_place_request (ctx : context) (r : request) (db : table) :
  r ≠ POST_add → (∀ i, r ≠ GET_delete i) →
  ∃ f : Todo → Todo,
    (∀ y, id (f y) = id y ∧ created_at (f y) = created_at y) ∧
    snd (serve ctx r db) = f <$> db.
Proof.
  intros Hadd Hdel.
  assert (∃ f : Todo → Todo,
            (∀ y, id (f y) = id y ∧ created_at (f y) = created_at y) ∧
            db = f <$> db) as Hnone.
  { exists (λ y, y). split; [done|]. symmetry. apply list_fmap_id. }
  assert (∀ (g : Todo → Todo) i,
            (∀ y, id (g y) = id y ∧ created_at (g y) = created_at y) →
            ∃ f : Todo → Todo,
              (∀ y, id (f y) = id y ∧ created_at (f y) = created_at y) ∧
              (λ y, if decide (id y = i) then g y else y) <$> db = f <$> db)
    as Hupdate.
  { intros g i Hg. eexists. split; [|reflexivity].
    intros y; cbn. case_decide; [apply Hg | done]. }
  destruct r as [| |i|i|i]; [| done | | by destruct (Hdel i) |].
  - by rewrite serve_index.
  - rewrite serve_toggle. destruct (find _ db); [|done]. by apply Hupdate.
  - rewrite serve_edit. destruct (find _ db); [|done]. cbn [snd].
    destruct (truthy _); [|done]. by apply Hupdate.
Qed.

(** X9. Toggle and edit do not move an item in the listing: the sequence of
    ids shown, and of timestamps, is the same before and after; so it is for
    a request answered with 404 and for the listing itself.  Only create and
    delete change what the listing enumerates. *)
Theorem listing_order_kept (ctx ctx' : context) (r : request) (db : table) :
  r ≠ POST_add → (∀ i, r ≠ GET_delete i) →
  id <$> listing ctx' (snd (serve ctx r db)) = id <$> listing ctx' db ∧
  created_at <$> listing ctx' (snd (serve ctx r db))
    = created_at <$> listing ctx' db.
Proof.
  intros Hadd Hdel.
  destruct (in_place_request ctx r db Hadd Hdel) as (f & Hf & ->).
  rewrite !listing_sorted, order_by_created_at_desc_fmap by apply Hf.
  rewrite <- !list_fmap_compose.
  split; apply list_fmap_ext; intros _ y _; cbn; apply Hf.
Qed.

Lemma listing_order_kept_witness :
  GET_toggle 1 ≠ POST_add ∧ (∀ i, GET_toggle 1 ≠ GET_delete i) ∧
  id <$> listing (mkContext [] 10)
           (snd (serve (mkContext [] 9) (GET_toggle 1)
                   [mkTodo 1 "Buy milk" false 7; mkTodo 2 "Walk" true 8]))
    = id <$> listing (mkContext [] 10)
               [mkTodo 1 "Buy milk" false 7; mkTodo 2 "Walk" true 8] ∧
  created_at <$> listing (mkContext [] 10)
                   (snd (serve (mkContext [] 9) (GET_toggle 1)
                           [mkTodo 1 "Buy milk" false 7; mkTodo 2 "Walk" true 8]))
    = created_at <$> listing (mkContext [] 10)
                       [mkTodo 1 "Buy milk" false 7; mkTodo 2 "Walk" true 8].
Proof.
  assert (GET_toggle 1 ≠ POST_add) as Hadd by discriminate.
  assert (∀ i, GET_toggle 1 ≠ GET_delete i) as Hdel by discriminate.
  split; [exact Hadd|]. split; [exact Hdel|].
  exact (listing_order_kept (mkContext [] 9) (mkContext [] 10) _ _ Hadd Hdel).
Defined.

(** *** Where stored values come from *)

(** X10. Titles are never made up or rewritten: the title of a row in the
    table after a history of requests is the title of a row with that id in
    the table before, or it is, character for character, the non-empty
    [title] field of a create or of an edit of that id in the history. *)
Theorem titles_come_from_forms
    (history : list (context * request)) (db : table) (x : Todo) :
  x ∈ run history db →
  (∃ y, y ∈ db ∧ id y = id x ∧ title y = title x) ∨
  (∃ ctx r, (ctx, r) ∈ history ∧ (r = POST_add ∨ r = POST_edit (id x)) ∧
            multidict_get "title" (form ctx) = Some (title x) ∧ title x ≠ "").
Proof.
  revert db. induction history as [|[ctx r] history IH]; intros db Hx.
  { left. by exists x. }
  cbn [run] in Hx. apply IH in Hx as [(y1 & Hy1 & Hid & Htitle)|Hlater].
  - apply row_origin in Hy1
      as [(y & Hy & Hid' & _ & _ & [Hsame|(-> & Hne & Hform)] & _)
         |(-> & Hne & Hform & _)].
    + left. exists y. split; [done|]. split; congruence.
    + right. exists ctx, (POST_edit (id y)). rewrite <- Htitle.
      split; [left|]. split; [right; congruence|]. done.
    + right. exists ctx, POST_add. rewrite <- Htitle.
      split; [left|]. split; [by left|]. done.
  - right. destruct Hlater as (ctx' & r' & Hin & Hrest).
    exists ctx', r'. split; [by right | done].
Qed.

Lemma titles_come_from_forms_witness :
  mkTodo 1 "Buy oat milk" false 7
    ∈ run [(mkContext [("title", "Walk")] 9, POST_add);
           (mkContext [("title", "Buy oat milk")] 10, POST_edit 1)]
        [mkTodo 1 "Buy milk" false 7] ∧
  ((∃ y, y ∈ [mkTodo 1 "Buy milk" false 7] ∧
         id y = id (mkTodo 1 "Buy oat milk" false 7) ∧
         title y = title (mkTodo 1 "Buy oat milk" false 7)) ∨
   (∃ ctx r,
      (ctx, r) ∈ [(mkContext [("title", "Walk")] 9, POST_add);
                  (mkContext [("title", "Buy oat milk")] 10, POST_edit 1)] ∧
      (r = POST_add ∨ r = POST_edit (id (mkTodo 1 "Buy oat milk" false 7))) ∧
      multidict_get "title" (form ctx)
        = Some (title (mkTodo 1 "Buy oat milk" false 7)) ∧
      title (mkTodo 1 "Buy oat milk" false 7) ≠ "")).
Proof.
  assert (mkTodo 1 "Buy oat milk" false 7
            ∈ run [(mkContext [("title", "Walk")] 9, POST_add);
                   (mkContext [("title", "Buy oat milk")] 10, POST_edit 1)]
                [mkTodo 1 "Buy milk" false 7]) as Hin by left.
  split; [exact Hin|].
  exact (titles_come_from_forms _ _ _ Hin).
Defined.

(** X11. [created_at] is set once, at creation: the timestamp of a row in
    the table after a history of requests is the timestamp of a row with
    that id in the table before, or the clock reading of a create in the
    history.  Toggle and edit never touch it. *)
Theorem timestamps_come_from_clock
    (history : list (context * request)) (db : table) (x : Todo) :
  x ∈ run history db →
  (∃ y, y ∈ db ∧ id y = id x ∧ created_at y = created_at x) ∨
  (∃ ctx, (ctx, POST_add) ∈ history ∧ created_at x = utcnow ctx).
Proof.
  revert db. induction history as [|[ctx r] history IH]; intros db Hx.
  { left. by exists x. }
  cbn [run] in Hx. apply IH in Hx as [(y1 & Hy1 & Hid & Hstamp)|Hlater].
  - apply row_origin in Hy1
      as [(y & Hy & Hid' & Hstamp' & _)|(-> & _ & _ & _ & Hnow)].
    + left. exists y. split; [done|]. split; congruence.
    + right. exists ctx. split; [left | congruence].
  - right. destruct Hlater as (ctx' & Hin & Hrest).
    exists ctx'. split; [by right | done].
Qed.

Lemma timestamps_come_from_clock_witness :
  mkTodo 2 "Walk" true 9
    ∈ run [(mkContext [("title", "Walk")] 9, POST_add);
           (mkContext [] 10, GET_toggle 2)]
        [mkTodo 1 "Buy milk" false 7] ∧
  ((∃ y, y ∈ [mkTodo 1 "Buy milk" false 7] ∧
         id y = id (mkTodo 2 "Walk" true 9) ∧
         created_at y = created_at (mkTodo 2 "Walk" true 9)) ∨
   (∃ ctx,
      (ctx, POST_add) ∈ [(mkContext [("title", "Walk")] 9, POST_add);
                         (mkContext [] 10, GET_toggle 2)] ∧
      created_at (mkTodo 2 "Walk" true 9) = utcnow ctx)).
Proof.
  assert (mkTodo 2 "Walk" true 9
            ∈ run [(mkContext [("title", "Walk")] 9, POST_add);
                   (mkContext [] 10, GET_toggle 2)]
                [mkTodo 1 "Buy milk" false 7]) as Hin by (right; left).
  split; [exact Hin|].
  exact (timestamps_come_from_clock _ _ _ Hin).
Defined.

(** *** The printed form of a row *)

Lemma colon_free_digit (d : N) (s : string) :
  colon_free (String (pretty_N_char d) s) = colon_free s.
Proof. unfold pretty_N_char. by repeat case_match. Qed.

Lemma colon_free_pretty_N_go (x : N) (s : string) :
  colon_free s = true → colon_free (pretty_N_go x s) = true.
Proof.
  revert s. induction (N.lt_wf_0 x) as [x _ IH]; intros s Hs.
  assert (x = 0 ∨ 0 < x)%N as [->|Hx] by lia.
  - by rewrite pretty_N_go_0.
  - rewrite pretty_N_go_step by done. apply IH.
    + by apply N.div_lt.
    + by rewrite colon_free_digit.
Qed.

(** A printed integer is digits and at most a sign. *)
Lemma colon_free_pretty_Z (z : Z) : colon_free (pretty z) = true.
Proof.
  assert (∀ n : N, colon_free (pretty n) = true) as HN.
  { intros n. unfold pretty, pretty_N. case_decide; [done|].
    by apply colon_free_pretty_N_go. }
  destruct z as [|p|p]; [done | apply HN | apply (HN (Npos p))].
Qed.

Lemma split_at_colon (s1 s2 r1 r2 : string) :
  colon_free s1 = true → colon_free s2 = true →
  s1 +:+ String ":" r1 = s2 +:+ String ":" r2 → s1 = s2 ∧ r1 = r2.
Proof.
  revert s2. induction s1 as [|c1 s1 IH]; intros [|c2 s2]; cbn.
  - by intros _ _ [= ->].
  - by intros _ [Hc _]%andb_prop [= <- _].
  - by intros [Hc _]%andb_prop _ [= -> _].
  - intros [_ H1]%andb_prop [_ H2]%andb_prop [= -> Heq].
    by destruct (IH s2 H1 H2 Heq) as [-> ->].
Qed.

Lemma app_char_inj (s1 s2 : string) (c : ascii) :
  s1 +:+ String c "" = s2 +:+ String c "" → s1 = s2.
Proof.
  revert s2. induction s1 as [|c1 s1 IH]; intros [|c2 s2]; cbn; try done.
  - intros [= _ Heq]. by destruct s2.
  - intros [= _ Heq]. by destruct s1.
  - intros [= -> Heq]. f_equal. by apply IH.
Qed.

(** X12. [__repr__] tells rows apart by id and title, and by nothing else:
    two rows print alike exactly when they have the same id and the same
    title, even when a title itself holds [": "] or [">"]. *)
Theorem repr_identifies_id_and_title (a b : Todo) :
  __repr__ a = __repr__ b ↔ id a = id b ∧ title a = title b.
Proof.
  split; [|by intros [Hid Htitle]; unfold __repr__; rewrite Hid, Htitle].
  unfold __repr__. intros Heq%(inj (String.app "<Todo ")).
  apply split_at_colon in Heq as [Hid Heq]; [|apply colon_free_pretty_Z..].
  apply (inj pretty) in Hid. split; [done|].
  injection Heq as Heq. by apply app_char_inj in Heq.
Qed.

Example repr_buy_milk : __repr__ (mkTodo 1 "Buy milk" false 7) = "<Todo 1: Buy milk>".
Proof. by vm_compute. Qed.

Lemma repr_identifies_id_and_title_witness :
  id (mkTodo 3 "a: b>" false 7) = id (mkTodo 3 "a: b>" true 9) ∧
  title (mkTodo 3 "a: b>" false 7) = title (mkTodo 3 "a: b>" true 9) ∧
  __repr__ (mkTodo 3 "a: b>" false 7) = __repr__ (mkTodo 3 "a: b>" true 9).
Proof.
  split; [reflexivity|]. split; [reflexivity|].
  apply (repr_identifies_id_and_title (mkTodo 3 "a: b>" false 7)
           (mkTodo 3 "a: b>" true 9)).
  split; reflexivity.
Defined.

(** *** Create followed by delete *)

(** Deleting by the id just handed out removes the new row only. *)
Lemma delete_created (db : table) (new : Todo) :
  id new = next_rowid db →
  filter (λ y, id y ≠ id new) (db ++ [new]) = db.
Proof.
  intros Hid. rewrite filter_app, filter_cons_False by (intros H; by apply H).
  rewrite filter_nil, app_nil_r. apply delete_absent.
  intros y Hy%next_rowid_above. lia.
Qed.

Lemma lookup_created (db : table) (new : Todo) :
  id new = next_rowid db →
  find (λ x, bool_decide (id x = id new)) (db ++ [new]) = Some new.
Proof.
  intros Hid.
  assert (∀ y, y ∈ db → id y ≠ id new) as Hdb.
  { intros y Hy%next_rowid_above. lia. }
  clear Hid. induction db as [|y db IH]; cbn.
  - by rewrite bool_decide_eq_true_2.
  - rewrite bool_decide_eq_false_2 by (apply Hdb; left).
    apply IH. intros y' Hy'. apply Hdb. by right.
Qed.

(** X13. Create and delete are inverse: deleting the item that a create has
    just stored gives back the table as it was before the create, row for
    row. *)
Theorem add_then_delete_restores (ctx1 ctx2 : context) (db : table) (t : string) :
  multidict_get "title" (form ctx1) = Some t → t ≠ "" →
  ∃ new,
    serve ctx1 POST_add db = (Redirect "/", db ++ [new]) ∧
    serve ctx2 (GET_delete (id new)) (db ++ [new]) = (Redirect "/", db).
Proof.
  intros Hform Ht.
  set (new := mkTodo (next_rowid db) t false (utcnow ctx1)).
  exists new. split.
  { by rewrite serve_add, Hform, truthy_Some. }
  rewrite serve_delete, (lookup_created db new) by done. cbn [apply_change].
  by rewrite (delete_created db new).
Qed.

Lemma add_then_delete_restores_witness :
  multidict_get "title" (form (mkContext [("title", "Walk")] 9)) = Some "Walk" ∧
  "Walk" ≠ "" ∧
  ∃ new,
    serve (mkContext [("title", "Walk")] 9) POST_add [mkTodo 1 "Buy milk" true 7]
      = (Redirect "/", [mkTodo 1 "Buy milk" true 7] ++ [new]) ∧
    serve (mkContext [] 10) (GET_delete (id new)) ([mkTodo 1 "Buy milk" true 7] ++ [new])
      = (Redirect "/", [mkTodo 1 "Buy milk" true 7]).
Proof.
  split; [reflexivity|]. split; [discriminate|].
  apply (add_then_delete_restores (mkContext [("title", "Walk")] 9)
           (mkContext [] 10) [mkTodo 1 "Buy milk" true 7] "Walk");
    [reflexivity | discriminate].
Defined.
